(** * Security log anomaly detector: a shallow embedding of
      [anomaly_detector.py] and the properties of its parser, its threshold
      filter, its reporter and its argument handling.

    Python values are modelled as follows.
    - [str]: the list of its Unicode code points, each an [N].
    - [int]: [Z].
    - [Dict[str, int]]: an association list in insertion order with one
      binding per key, which is what [items()] iterates over.
    - the text file: the list of lines that iterating over it yields.
    - standard output: the list of the texts given to [print], one per call. *)

From Stdlib Require Import String Ascii DecimalString.
From Stdlib Require Import List ZArith NArith Lia Bool.
From Stdlib Require Import Sorted Permutation.
From Stdlib Require DecimalPos.
Import ListNotations.

Local Open Scope Z_scope.

(** ** Text *)

Definition str := list N.

(** An ASCII literal of the source as a [str]. *)
Definition lit (s : string) : str := map N_of_ascii (list_ascii_of_string s).
Arguments lit s%_string.

Fixpoint str_eqb (a b : str) : bool :=
  match a, b with
  | [], [] => true
  | x :: a', y :: b' => N.eqb x y && str_eqb a' b'
  | _, _ => false
  end.

(** The decimal text of an [int]: what [str(n)] and [f"{n}"] give when they
    return. They raise [ValueError] for an [int] of more digits than the
    interpreter allows; [printable], below, says when they return. *)
Definition str_of_int (n : Z) : str := 
  lit (NilZero.string_of_int (Z.to_int n)).

(** What the program uses of the interpreter and of [pathlib] without
    defining it: the Unicode tables for code points outside ASCII, the
    interpreter's limit on the digits of an integer literal, [repr] on a
    [str], and [Path] with its constructor and its conversion to [str]. *)
Class Runtime := {
  (** [chr(c).upper()] for a code point [c >= 128] *)
  upper_full : N -> str;
  (** the decimal digit value of a code point [c >= 127], if it has one *)
  decimal_value : N -> option N;
  (** [sys.get_int_max_str_digits()]; 0 switches the limit off *)
  int_max_str_digits : N;
  repr : str -> str;
  Path : Type;
  Path_of_str : str -> Path;
  str_of_Path : Path -> str
}.

(** Whether [str(n)] and [f"{n}"] return: they raise [ValueError] when the
    text, sign included, is longer than 640 code points and [n] has more
    digits than a limit that is switched on allows. *)
Definition printable `{Runtime} (n : Z) : bool :=
  let digits := N.of_nat (List.length (str_of_int (Z.abs n))) in
  let strlen := N.of_nat (List.length (str_of_int n)) in
  negb ((640 <? strlen) && (0 <? int_max_str_digits)
        && (int_max_str_digits <? digits))%N.

(** A runtime that knows ASCII only, to run the model on ASCII inputs. *)
Definition ascii_runtime : Runtime := {|
  upper_full := fun c => [c];
  decimal_value := fun _ => None;
  int_max_str_digits := 4300;
  repr := fun s => lit "'" ++ s ++ lit "'";
  Path := str;
  Path_of_str := fun s => s;
  str_of_Path := fun p => p
|}.

(** ** The [str] methods and builtins the program calls *)
Module Py.

(** [str.isspace] on one code point; [strip()] and [split()] without
    arguments cut at exactly these. *)
Definition isspace (c : N) : bool :=
  ((9 <=? c) && (c <=? 13) || (28 <=? c) && (c <=? 32)
   || (c =? 133) || (c =? 160) || (c =? 5760)
   || (8192 <=? c) && (c <=? 8202)
   || (c =? 8232) || (c =? 8233) || (c =? 8239) || (c =? 8287)
   || (c =? 12288))%N.

Fixpoint lstrip (s : str) : str :=
  match s with
  | c :: s' => if isspace c then lstrip s' else s
  | [] => []
  end.

Definition rstrip (s : str) : str := rev (lstrip (rev s)).

Definition strip (s : str) : str := rstrip (lstrip s).

(** [split()] scans left to right; [word] holds the code points of the token
    being read, last one first. A token ends at a whitespace code point or
    at the end of the text, and runs of whitespace produce no empty token. *)
Fixpoint split_from (word : str) (s : str) : list str :=
  match s with
  | [] => match word with [] => [] | _ => [rev word] end
  | c :: s' =>
      if isspace c then
        match word with
        | [] => split_from [] s'
        | _ => rev word :: split_from [] s'
        end
      else split_from (c :: word) s'
  end.

Definition split (s : str) : list str := split_from [] s.

Definition upper_char `{Runtime} (c : N) : str :=
  if (c <? 128)%N then
    if ((97 <=? c) && (c <=? 122))%N then [(c - 32)%N] else [c]
  else upper_full c.

Definition upper `{Runtime} (s : str) : str := flat_map upper_char s.

(** [int(s)] for a [str]: [None] stands for [ValueError]. The text is first
    brought to ASCII: whitespace and decimal digits outside ASCII become a
    space and the ASCII digit, and the text is cut after the first other
    code point outside ASCII, which becomes a question mark. *)
Fixpoint to_ascii_decimal `{Runtime} (s : str) : str :=
  match s with
  | [] => []
  | c :: s' =>
      if (c <? 127)%N then c :: to_ascii_decimal s'
      else if isspace c then 32%N :: to_ascii_decimal s'
      else match decimal_value c with
           | Some d => (48 + d)%N :: to_ascii_decimal s'
           | None => [63%N]
           end
  end.

(** The C locale's whitespace, which is what the integer reader skips. *)
Definition c_isspace (c : N) : bool := ((9 <=? c) && (c <=? 13) || (c =? 32))%N.

Fixpoint skip_space (s : str) : str :=
  match s with
  | c :: s' => if c_isspace c then skip_space s' else s
  | [] => []
  end.

Definition is_digit (c : N) : bool := ((48 <=? c) && (c <=? 57))%N.

(** Reads digits and single underscores between them; gives the value read,
    the number of digits and the rest of the text. [us] says that the code
    point just read was an underscore. *)
Fixpoint scan_digits (us : bool) (acc : Z) (n : N) (s : str)
  : option (Z * N * str) :=
  match s with
  | [] => if us then None else Some (acc, n, [])
  | c :: s' =>
      if is_digit c then
        scan_digits false (10 * acc + Z.of_N (c - 48)) (n + 1)%N s'
      else if (c =? 95)%N then
        if us then None else scan_digits true acc n s'
      else if us then None else Some (acc, n, s)
  end.

Definition int `{Runtime} (x : str) : option Z :=
  let s := skip_space (to_ascii_decimal x) in
  let '(sign, s) :=
    match s with
    | 43%N :: s' => (1, s')
    | 45%N :: s' => (-1, s')
    | _ => (1, s)
    end in
  match s with
  | 95%N :: _ => None
  | _ =>
      match scan_digits false 0 0%N s with
      | None => None
      | Some (v, n, rest) =>
          if ((640 <? n) && (0 <? int_max_str_digits)
              && (int_max_str_digits <? n))%N then None
          else if (n =? 0)%N then None
          else match skip_space rest with
               | [] => Some (sign * v)
               | _ => None
               end
      end
  end.

(** [sorted(l, key=key, reverse=True)]: the sort is stable also in reverse,
    so the result is the one arrangement of [l] in descending key order that
    keeps elements of equal key in their order in [l]. It is computed here by
    inserting each element in front of the elements inserted after it. *)
Section Sorted.
Context {A : Type} (key : A -> Z).

Fixpoint insert_desc (x : A) (l : list A) : list A :=
  match l with
  | [] => [x]
  | y :: l' => if key x <? key y then y :: insert_desc x l' else x :: l
  end.

Definition sorted_reverse (l : list A) : list A := fold_right insert_desc [] l.
End Sorted.

(** *** [dict] *)

Definition dict := list (str * Z).

(** [d.get(k, default)] *)
Fixpoint get (d : dict) (k : str) (default : Z) : Z :=
  match d with
  | [] => default
  | (k', v) :: d' => if str_eqb k' k then v else get d' k default
  end.

(** [d[k] = v]: an existing key keeps its place, a new one goes last. *)
Fixpoint set (d : dict) (k : str) (v : Z) : dict :=
  match d with
  | [] => [(k, v)]
  | (k', v') :: d' =>
      if str_eqb k' k then (k', v) :: d' else (k', v') :: set d' k v
  end.

Definition keys (d : dict) : list str := map fst d.
Definition values (d : dict) : list Z := map snd d.
Definition len (d : dict) : Z := Z.of_nat (List.length d).

(** [sum(l)] *)
Definition sum (l : list Z) : Z := fold_left Z.add l 0.

End Py.

(** ** The program *)

Definition DEFAULT_LOG_FILE `{Runtime} : Path := Path_of_str (lit "logs/auth.log").
Definition DEFAULT_FAILED_THRESHOLD : Z := 5.

(** The results of the parser, in the order it returns them. *)
Definition counts : Type := Py.dict * Z * Z.

(** One turn of the loop over the lines of the file. *)
Definition load_step `{Runtime} (st : counts) (line : str) : counts :=
  let '(failed_attempts, total_lines, total_failed) := st in
  let total_lines := total_lines + 1 in
  let line := Py.strip line in
  match line with
  | [] => (failed_attempts, total_lines, total_failed)
  | _ =>
      let parts := Py.split line in
      if (List.length parts <? 4)%nat then
        (failed_attempts, total_lines, total_failed)
      else
        let user := nth 2 parts [] in
        let event := Py.upper (nth 3 parts []) in
        if str_eqb event (lit "LOGIN_FAILED") then
          (Py.set failed_attempts user (Py.get failed_attempts user 0 + 1),
           total_lines, total_failed + 1)
        else (failed_attempts, total_lines, total_failed)
  end.

(** [load_failed_attempts] once the file is open: [f] is the sequence of
    lines that iterating over the file yields. *)
Definition load_failed_attempts `{Runtime} (f : list str) : counts :=
  fold_left load_step f ([], 0, 0).

Definition find_suspicious_users (failed_attempts : Py.dict) (threshold : Z)
  : Py.dict :=
  filter (fun '(user, count) => threshold <=? count) failed_attempts.

(** The six [print] calls every summary starts with, for numbers that are
    all [printable]. *)
Definition summary_head `{Runtime} (log_path : Path)
    (failed_attempts : Py.dict) (total_lines total_failed threshold : Z)
  : list str :=
  [ lit "=== Security Log Anomaly Detector (Python) ===" ++ [10%N];
    lit "Log file: " ++ str_of_Path log_path;
    lit "Total lines: " ++ str_of_int total_lines;
    lit "Total failed logins: " ++ str_of_int total_failed;
    lit "Users with at least one failed login: "
      ++ str_of_int (Py.len failed_attempts);
    lit "Threshold for anomaly: " ++ str_of_int threshold
      ++ lit " failed logins" ++ [10%N] ].

(** The users the summary lists, in the order it lists them. *)
Definition listed_users (suspicious : Py.dict) : list (str * Z) :=
  Py.sorted_reverse snd suspicious.

Definition user_line (x : str * Z) : str :=
  let '(user, count) := x in
  lit " - " ++ user ++ lit " (" ++ str_of_int count ++ lit " failed logins)".

(** What [print_summary] prints when every number it formats is
    [printable]: the two totals, the size of the tally, the threshold and
    the counts of the users it lists. At the first number that is not, the
    code raises [ValueError] instead; the theorems on [print_summary] assume
    that there is none. *)
Definition print_summary `{Runtime} (log_path : Path)
    (failed_attempts : Py.dict) (total_lines total_failed threshold : Z)
  : list str :=
  let suspicious := find_suspicious_users failed_attempts threshold in
  summary_head log_path failed_attempts total_lines total_failed threshold
  ++ match suspicious with
     | [] => [lit "No suspicious users found based on the current threshold."]
     | _ => lit "Suspicious users:" :: map user_line (listed_users suspicious)
     end.

(** The diagnostic for a threshold argument that is not an integer. *)
Definition invalid_threshold `{Runtime} (arg : str) : str :=
  lit "Invalid threshold value: " ++ repr arg ++ lit ". Using default: "
  ++ str_of_int DEFAULT_FAILED_THRESHOLD ++ lit ".".

(** [parse_args] gives the log path, the threshold and what it printed. *)
Definition parse_args `{Runtime} (argv : list str) : Path * Z * list str :=
  let log_path :=
    if (2 <=? List.length argv)%nat then Path_of_str (nth 1 argv [])
    else DEFAULT_LOG_FILE in
  if (3 <=? List.length argv)%nat then
    match Py.int (nth 2 argv []) with
    | Some threshold => (log_path, threshold, [])
    | None =>
        (log_path, DEFAULT_FAILED_THRESHOLD,
         [invalid_threshold (nth 2 argv [])])
    end
  else (log_path, DEFAULT_FAILED_THRESHOLD, []).

(** What a path names: nothing, something that cannot be read as text, or a
    text file with its lines. *)
Inductive node :=
| Unreadable
| TextFile (lines : list str).

(** How a run ends: [sys.exit] with a status, the end of [main] (status 0),
    or an exception that nothing catches, after which the interpreter prints
    a traceback and the process ends with status 1 as well. *)
Inductive ending :=
| Exit (status : Z)
| Raised.

(** [main] on a file system [fs] and an argument vector: what it printed and
    how it ended. *)
Definition main `{Runtime} (fs : Path -> option node) (argv : list str)
  : list str * ending :=
  let '(log_path, threshold, out) := parse_args argv in
  match fs log_path with
  | None =>
      (out ++ [lit "Log file not found: " ++ str_of_Path log_path], Exit 1)
  | Some Unreadable => (out, Raised)
  | Some (TextFile f) =>
      let '(failed_attempts, total_lines, total_failed) :=
        load_failed_attempts f in
      (out ++ print_summary log_path failed_attempts total_lines
                total_failed threshold,
       Exit 0)
  end.

(** ** Scenario A of the specification *)

Definition scenario_A : list str :=
  [ lit "2025-11-10 17:33:04 alice LOGIN_FAILED" ++ [10%N];
    lit "2025-11-10 17:33:10 alice LOGIN_FAILED" ++ [10%N];
    lit "2025-11-10 17:33:20 bob LOGIN_SUCCESS" ++ [10%N];
    [10%N];
    lit "malformed line" ++ [10%N];
    lit "2025-11-10 17:34:00 alice login_failed" ++ [10%N] ].

(** The three spellings of the event kind that the specification names. *)
Definition failed_spellings : list str :=
  [lit "login_failed"; lit "Login_Failed"; lit "LOGIN_FAILED"].

(** A line built around its fourth token: [pre] holds the first three tokens
    and the whitespace after them, [post] is what follows the fourth token. *)
Definition ends_with_space (s : str) : bool :=
  match rev s with
  | c :: _ => Py.isspace c
  | [] => false
  end.

Definition empty_or_space_first (s : str) : bool :=
  match s with
  | c :: _ => Py.isspace c
  | [] => true
  end.

(** Descending order by key: the key of the earlier element is at least that
    of the later one. *)
Definition key_ge {A : Type} (key : A -> Z) (x y : A) : Prop := key y <= key x.

(** The listing order: the count of the earlier entry is at least that of
    the later one. *)
Definition count_ge : str * Z -> str * Z -> Prop := key_ge snd.

(** The data model's FailureTally: no count is negative. *)
Definition FailureTally (d : Py.dict) : Prop :=
  Forall (fun entry => 0 <= snd entry) d.

(** The loop invariant of the parser: the failure counter and the tally move
    together, and the line counter moves at every line. *)
Definition tallied (st : counts) : Prop :=
  let '(d, tl, tf) := st in
  tf = Py.sum (Py.values d)
  /\ Forall (fun entry => 1 <= snd entry) d
  /\ NoDup (Py.keys d)
  /\ Py.len d <= tf
  /\ tf <= tl.

(** ** What the parser computes, said without the loop *)

Definition str_eq_dec (a b : str) : {a = b} + {a <> b} :=
  list_eq_dec N.eq_dec a b.

(** The user for whom a line counts a failure, if it counts one: the tests of
    the loop body on one line, from [strip] to the comparison of the event. *)
Definition failed_login_user `{Runtime} (line : str) : option str :=
  let line := Py.strip line in
  match line with
  | [] => None
  | _ =>
      let parts := Py.split line in
      if (List.length parts <? 4)%nat then None
      else
        let user := nth 2 parts [] in
        let event := Py.upper (nth 3 parts []) in
        if str_eqb event (lit "LOGIN_FAILED") then Some user else None
  end.

(** The users of the lines that count a failure, in the order of the lines. *)
Definition failed_users `{Runtime} (f : list str) : list str :=
  flat_map (fun line =>
              match failed_login_user line with
              | Some user => [user]
              | None => []
              end) f.

(** The elements of a list in the order of their first appearance. *)
Definition first_seen (l : list str) : list str :=
  rev (nodup str_eq_dec (rev l)).

(** What the counters are after the lines [f]. *)
Definition counted `{Runtime} (f : list str) (st : counts) : Prop :=
  let '(d, tl, tf) := st in
  tl = Z.of_nat (List.length f)
  /\ tf = Z.of_nat (List.length (failed_users f))
  /\ (forall user,
        Py.get d user 0 = Z.of_nat (count_occ str_eq_dec (failed_users f) user))
  /\ Py.keys d = first_seen (failed_users f).

(** The third and fourth tokens of a line, or fewer when it is shorter. *)
Definition user_and_event (line : str) : list str :=
  firstn 2 (skipn 2 (Py.split line)).

(** A token: not empty and free of whitespace. *)
Definition is_token (t : str) : Prop :=
  t <> [] /\ forallb (fun c => negb (Py.isspace c)) t = true.

(** * Properties *)

(** ** Text and dictionaries *)

Lemma str_eqb_eq (a b : str) : str_eqb a b = true <-> a = b.
Proof.
  revert b; induction a as [|x a IH]; intros [|y b]; simpl;
    try (split; [discriminate | discriminate]); try tauto.
  rewrite andb_true_iff, N.eqb_eq, IH.
  split; [intros [-> ->]; reflexivity | intros E; inversion E; auto].
Qed.

Lemma str_eqb_refl (a : str) : str_eqb a a = true.
Proof. apply str_eqb_eq; reflexivity. Qed.

Lemma sum_from (l : list Z) (a : Z) : fold_left Z.add l a = a + Py.sum l.
Proof.
  revert a; induction l as [|x l IH]; intros a.
  - unfold Py.sum; simpl; lia.
  - change (fold_left Z.add l (a + x) = a + fold_left Z.add l (0 + x)).
    rewrite (IH (a + x)), (IH (0 + x)); lia.
Qed.

Lemma sum_cons (x : Z) (l : list Z) : Py.sum (x :: l) = x + Py.sum l.
Proof. unfold Py.sum at 1; simpl; apply sum_from. Qed.

(** Counting one more failure for [k] adds one to the sum of the counts. *)
Lemma sum_count_one (d : Py.dict) (k : str) :
  Py.sum (Py.values (Py.set d k (Py.get d k 0 + 1)))
  = Py.sum (Py.values d) + 1.
Proof.
  induction d as [|[k' v] d IH]; simpl.
  - reflexivity.
  - destruct (str_eqb k' k); simpl; rewrite !sum_cons.
    + fold (Py.values d); lia.
    + fold (Py.values (Py.set d k (Py.get d k 0 + 1))) (Py.values d).
      rewrite IH; lia.
Qed.

Lemma count_one_positive (d : Py.dict) (k : str) :
  Forall (fun entry => 1 <= snd entry) d ->
  Forall (fun entry => 1 <= snd entry) (Py.set d k (Py.get d k 0 + 1)).
Proof.
  induction 1 as [|[k' v] d Hv Hd IH]; simpl.
  - repeat constructor; simpl; lia.
  - destruct (str_eqb k' k); constructor; simpl in *; auto; lia.
Qed.

Lemma set_keys (d : Py.dict) (k : str) (v : Z) :
  Py.keys (Py.set d k v) = Py.keys d
  \/ (~ In k (Py.keys d) /\ Py.keys (Py.set d k v) = Py.keys d ++ [k]).
Proof.
  induction d as [|[k' v'] d IH]; simpl.
  - right; split; auto.
  - destruct (str_eqb k' k) eqn:E; simpl.
    + left; reflexivity.
    + destruct IH as [IH | [Hn IH]]; [left | right].
      * f_equal; exact IH.
      * split; [|f_equal; exact IH].
        intros [H | H]; [|tauto].
        subst k'; rewrite str_eqb_refl in E; discriminate.
Qed.

Lemma set_NoDup (d : Py.dict) (k : str) (v : Z) :
  NoDup (Py.keys d) -> NoDup (Py.keys (Py.set d k v)).
Proof.
  intros H; destruct (set_keys d k v) as [E | [Hn E]]; rewrite E; auto.
  apply NoDup_app; [exact H | repeat constructor; simpl; tauto |].
  intros x Hx [<- | []]; tauto.
Qed.

Lemma set_length (d : Py.dict) (k : str) (v : Z) :
  (List.length (Py.set d k v) <= S (List.length d))%nat.
Proof.
  induction d as [|[k' v'] d IH]; simpl; [lia|].
  destruct (str_eqb k' k); simpl; lia.
Qed.

(** ** [strip] and [split] *)

Lemma split_from_space (c : N) (s : str) :
  Py.isspace c = true -> Py.split_from [] (c :: s) = Py.split_from [] s.
Proof. intros H; simpl; rewrite H; reflexivity. Qed.

Lemma split_lstrip (s : str) : Py.split (Py.lstrip s) = Py.split s.
Proof.
  unfold Py.split; induction s as [|c s IH]; [reflexivity|].
  simpl Py.lstrip; destruct (Py.isspace c) eqn:Hc; [|reflexivity].
  rewrite split_from_space by exact Hc; exact IH.
Qed.

(** Whitespace at the end of the text adds no token. *)
Lemma split_from_last_space (s : str) (c : N) (word : str) :
  Py.isspace c = true -> Py.split_from word (s ++ [c]) = Py.split_from word s.
Proof.
  intros Hc; revert word; induction s as [|x s IH]; intros word; simpl.
  - rewrite Hc; destruct word; reflexivity.
  - destruct (Py.isspace x).
    + destruct word; rewrite IH; reflexivity.
    + apply IH.
Qed.

Lemma rstrip_last (s : str) (c : N) :
  Py.rstrip (s ++ [c]) = if Py.isspace c then Py.rstrip s else s ++ [c].
Proof.
  unfold Py.rstrip; rewrite rev_app_distr; simpl.
  destruct (Py.isspace c); [reflexivity|].
  simpl; rewrite rev_involutive; reflexivity.
Qed.

Lemma split_rstrip (s : str) : Py.split (Py.rstrip s) = Py.split s.
Proof.
  unfold Py.split; induction s as [|c s IH] using rev_ind.
  - reflexivity.
  - rewrite rstrip_last; destruct (Py.isspace c) eqn:Hc; [|reflexivity].
    rewrite split_from_last_space by exact Hc; exact IH.
Qed.

Lemma split_strip (s : str) : Py.split (Py.strip s) = Py.split s.
Proof. unfold Py.strip; rewrite split_rstrip; apply split_lstrip. Qed.

(** A token followed by the end of the text or by whitespace. *)
Lemma split_from_token (t : str) (word s : str) :
  forallb (fun c => negb (Py.isspace c)) t = true ->
  Py.split_from word (t ++ s) = Py.split_from (rev t ++ word) s.
Proof.
  revert word; induction t as [|c t IH]; intros word Ht; simpl in *.
  - reflexivity.
  - apply andb_true_iff in Ht; destruct Ht as [Hc Ht].
    destruct (Py.isspace c); [discriminate|].
    rewrite IH by exact Ht; rewrite <- app_assoc; reflexivity.
Qed.

(** Whitespace closes the token being read: what follows is split on its
    own. *)
Lemma split_from_app_space (p : str) (c : N) (s word : str) :
  Py.isspace c = true ->
  Py.split_from word (p ++ c :: s)
  = Py.split_from word (p ++ [c]) ++ Py.split_from [] s.
Proof.
  intros Hc; revert word; induction p as [|x p IH]; intros word; simpl.
  - rewrite Hc; destruct word; reflexivity.
  - destruct (Py.isspace x).
    + destruct word; rewrite IH; reflexivity.
    + apply IH.
Qed.

Lemma ends_with_space_inv (s : str) :
  ends_with_space s = true ->
  exists p c, s = p ++ [c] /\ Py.isspace c = true.
Proof.
  unfold ends_with_space; intros H.
  destruct (rev s) as [|c r] eqn:E; [discriminate|].
  exists (rev r), c; split; [|exact H].
  rewrite <- (rev_involutive s), E; reflexivity.
Qed.

(** The tokens of a line written as three tokens, whitespace, a fourth token
    and the rest. *)
Lemma split_around_token (pre t post : str) :
  ends_with_space pre = true ->
  t <> [] ->
  forallb (fun c => negb (Py.isspace c)) t = true ->
  empty_or_space_first post = true ->
  Py.split (pre ++ t ++ post) = Py.split pre ++ t :: Py.split post.
Proof.
  intros Hpre Hne Ht Hpost.
  destruct (ends_with_space_inv pre Hpre) as (p & c & -> & Hc).
  unfold Py.split.
  rewrite <- app_assoc; simpl.
  rewrite split_from_app_space by exact Hc; f_equal.
  rewrite split_from_token by exact Ht; rewrite app_nil_r.
  assert (Hr : rev t <> []).
  { intros E; apply Hne; rewrite <- (rev_involutive t), E; reflexivity. }
  destruct post as [|x post]; simpl in *.
  - destruct (rev t) eqn:E; [congruence|].
    rewrite <- E, rev_involutive; reflexivity.
  - rewrite Hpost.
    destruct (rev t) eqn:E; [congruence|].
    rewrite <- E, rev_involutive; reflexivity.
Qed.

(** ** The parser *)

Section Parser.
Context `{R : Runtime}.

(** What one turn of the loop does, read off the tokens of the raw line:
    stripping changes no token, and a line that strips to nothing has
    none. *)
Lemma load_step_tokens (d : Py.dict) (tl tf : Z) (line : str) :
  load_step (d, tl, tf) line =
  match Py.split line with
  | _ :: _ :: user :: event :: _ =>
      if str_eqb (Py.upper event) (lit "LOGIN_FAILED")
      then (Py.set d user (Py.get d user 0 + 1), tl + 1, tf + 1)
      else (d, tl + 1, tf)
  | _ => (d, tl + 1, tf)
  end.
Proof.
  unfold load_step.
  rewrite <- (split_strip line).
  destruct (Py.strip line) as [|c s] eqn:E; [reflexivity|].
  destruct (Py.split (c :: s)) as [|a [|b [|u [|e rest]]]]; reflexivity.
Qed.

Lemma load_failed_attempts_app (f : list str) (line : str) :
  load_failed_attempts (f ++ [line])
  = load_step (load_failed_attempts f) line.
Proof. unfold load_failed_attempts; rewrite fold_left_app; reflexivity. Qed.

(** A property of the counters that holds before the loop and that every
    turn keeps holds of what the parser returns. *)
Lemma load_invariant (P : counts -> Prop) :
  P ([], 0, 0) ->
  (forall st line, P st -> P (load_step st line)) ->
  forall f, P (load_failed_attempts f).
Proof.
  intros H0 Hstep f; induction f as [|line f IH] using rev_ind.
  - exact H0.
  - rewrite load_failed_attempts_app; apply Hstep, IH.
Qed.

Lemma load_step_tallied (st : counts) (line : str) :
  tallied st -> tallied (load_step st line).
Proof.
  destruct st as [[d tl] tf]; rewrite load_step_tokens.
  intros (Hsum & Hpos & Hnd & Hlen & Hle).
  assert (Hskip : tallied (d, tl + 1, tf)).
  { repeat split; auto; lia. }
  destruct (Py.split line) as [|a [|b [|u [|e rest]]]]; try exact Hskip.
  destruct (str_eqb (Py.upper e) (lit "LOGIN_FAILED")); [|exact Hskip].
  repeat split.
  - rewrite sum_count_one; lia.
  - apply count_one_positive; exact Hpos.
  - apply set_NoDup; exact Hnd.
  - unfold Py.len in *.
    pose proof (set_length d u (Py.get d u 0 + 1)); lia.
  - lia.
Qed.

Lemma load_tallied (f : list str) : tallied (load_failed_attempts f).
Proof.
  apply load_invariant; [|apply load_step_tallied].
  repeat split; simpl; try constructor; reflexivity || lia.
Qed.

(** C1 (conservation). Whatever lines the file yields, the failure total the
    parser returns is the sum of the counts of the tally it returns. *)
Theorem total_failed_is_sum_of_tally (f : list str) :
  let '(failed_attempts, _, total_failed) := load_failed_attempts f in
  total_failed = Py.sum (Py.values failed_attempts).
Proof.
  pose proof (load_tallied f) as H.
  destruct (load_failed_attempts f) as [[d tl] tf].
  destruct H as (Hsum & _); exact Hsum.
Qed.

(** C2 (Scenario A). The six lines of the scenario give 6 lines, 3 failures
    and the tally with alice at 3 alone; that tally filtered at 3 is itself
    and filtered at 4 is empty. *)
Theorem scenario_A_result :
  load_failed_attempts scenario_A = ([(lit "alice", 3)], 6, 3)
  /\ find_suspicious_users [(lit "alice", 3)] 3 = [(lit "alice", 3)]
  /\ find_suspicious_users [(lit "alice", 3)] 4 = [].
Proof. repeat split; vm_compute; reflexivity. Qed.

Lemma blank_line_no_token (line : str) :
  forallb Py.isspace line = true -> Py.split line = [].
Proof.
  unfold Py.split; induction line as [|c line IH]; simpl; [reflexivity|].
  intros H; apply andb_true_iff in H; destruct H as [Hc H].
  rewrite Hc; apply IH, H.
Qed.

(** C4 (malformed tolerance). A line of fewer than four tokens, a blank or
    whitespace-only line included, put after the others leaves the tally and
    the failure total as they were and makes the line total one larger. *)
Theorem short_line_only_counts_as_line (f : list str) (line : str) :
  (List.length (Py.split line) < 4)%nat \/ forallb Py.isspace line = true ->
  load_failed_attempts (f ++ [line]) =
  let '(failed_attempts, total_lines, total_failed) :=
    load_failed_attempts f in
  (failed_attempts, total_lines + 1, total_failed).
Proof.
  intros H.
  assert (Hlen : (List.length (Py.split line) < 4)%nat).
  { destruct H as [H | H]; [exact H|].
    rewrite (blank_line_no_token line H); simpl; lia. }
  rewrite load_failed_attempts_app.
  destruct (load_failed_attempts f) as [[d tl] tf].
  rewrite load_step_tokens.
  destruct (Py.split line) as [|a [|b [|u [|e rest]]]]; try reflexivity.
  simpl in Hlen; lia.
Qed.

Lemma failed_spelling_token (e : str) :
  In e failed_spellings ->
  e <> []
  /\ forallb (fun c => negb (Py.isspace c)) e = true
  /\ Py.upper e = lit "LOGIN_FAILED".
Proof.
  intros [<- | [<- | [<- | []]]]; repeat split; discriminate || reflexivity.
Qed.

(** A line whose fourth token is one of the three spellings counts as a
    failure of the user named by its third token. *)
Lemma load_step_failed_spelling (d : Py.dict) (tl tf : Z)
    (pre post e : str) :
  List.length (Py.split pre) = 3%nat ->
  ends_with_space pre = true ->
  empty_or_space_first post = true ->
  In e failed_spellings ->
  load_step (d, tl, tf) (pre ++ e ++ post) =
  let user := nth 2 (Py.split pre) [] in
  (Py.set d user (Py.get d user 0 + 1), tl + 1, tf + 1).
Proof.
  intros H3 Hpre Hpost He.
  destruct (failed_spelling_token e He) as (Hne & Htok & Hup).
  rewrite load_step_tokens, split_around_token by assumption.
  destruct (Py.split pre) as [|a [|b [|u [|x rest]]]]; try discriminate.
  simpl; rewrite Hup, str_eqb_refl; reflexivity.
Qed.

(** C5 (case-insensitivity). In a line of at least four tokens, putting any
    of login_failed, Login_Failed and LOGIN_FAILED in the place of the
    fourth token, the rest of the input staying as it is, gives the same
    tally, line total and failure total. *)
Theorem failed_spellings_alike (before after : list str)
    (pre post e1 e2 : str) :
  List.length (Py.split pre) = 3%nat ->
  ends_with_space pre = true ->
  empty_or_space_first post = true ->
  In e1 failed_spellings ->
  In e2 failed_spellings ->
  load_failed_attempts (before ++ (pre ++ e1 ++ post) :: after)
  = load_failed_attempts (before ++ (pre ++ e2 ++ post) :: after).
Proof.
  intros H3 Hpre Hpost He1 He2.
  unfold load_failed_attempts; rewrite !fold_left_app; simpl.
  destruct (fold_left load_step before ([], 0, 0)) as [[d tl] tf].
  rewrite !load_step_failed_spelling by assumption; reflexivity.
Qed.

(** C9. In what the parser returns every count of the tally is at least 1,
    the tally has one entry per user and no more entries than there were
    failures, and there were no more failures than lines. *)
Theorem counts_chain (f : list str) :
  let '(failed_attempts, total_lines, total_failed) :=
    load_failed_attempts f in
  Forall (fun entry => 1 <= snd entry) failed_attempts
  /\ NoDup (Py.keys failed_attempts)
  /\ Py.len failed_attempts <= total_failed
  /\ total_failed <= total_lines.
Proof.
  pose proof (load_tallied f) as H.
  destruct (load_failed_attempts f) as [[d tl] tf].
  destruct H as (_ & H); exact H.
Qed.

End Parser.

(** ** The threshold filter *)

Lemma find_suspicious_users_In (tally : Py.dict) (t : Z) (entry : str * Z) :
  In entry (find_suspicious_users tally t) <-> In entry tally /\ t <= snd entry.
Proof.
  unfold find_suspicious_users; rewrite filter_In.
  destruct entry as [user count]; simpl; rewrite Z.leb_le; reflexivity.
Qed.

(** C3 (filter monotonicity). With thresholds [t1 <= t2], every entry that
    the filter keeps at [t2] it keeps at [t1]. *)
Theorem suspicious_shrink_with_threshold (tally : Py.dict) (t1 t2 : Z) :
  t1 <= t2 ->
  incl (find_suspicious_users tally t2) (find_suspicious_users tally t1).
Proof.
  intros Hle entry; rewrite !find_suspicious_users_In.
  intros [Hin Ht]; split; [exact Hin | lia].
Qed.

(** C6. At a threshold of 0 or less the filter returns the whole tally: the
    same entries in the same order. *)
Theorem nonpositive_threshold_keeps_all (tally : Py.dict) (t : Z) :
  FailureTally tally ->
  t <= 0 ->
  find_suspicious_users tally t = tally.
Proof.
  intros Hwf Ht; unfold find_suspicious_users.
  induction Hwf as [|[user count] d Hc Hd IH]; simpl in *; [reflexivity|].
  replace (t <=? count) with true by (symmetry; apply Z.leb_le; lia).
  rewrite IH; reflexivity.
Qed.

(** C10. Filtering what the filter returned, at the same threshold, changes
    nothing. *)
Theorem find_suspicious_users_idempotent (tally : Py.dict) (t : Z) :
  find_suspicious_users (find_suspicious_users tally t) t
  = find_suspicious_users tally t.
Proof.
  unfold find_suspicious_users.
  induction tally as [|[user count] d IH]; simpl; [reflexivity|].
  destruct (t <=? count) eqn:E; simpl; [rewrite E, IH; reflexivity | exact IH].
Qed.

(** ** Sorting *)

Section SortedReverse.
Context {A : Type} (key : A -> Z).

Lemma insert_desc_perm (x : A) (l : list A) :
  Permutation (Py.insert_desc key x l) (x :: l).
Proof.
  induction l as [|y l IH]; simpl; [reflexivity|].
  destruct (key x <? key y); [|reflexivity].
  rewrite IH; apply perm_swap.
Qed.

Lemma sorted_reverse_perm (l : list A) :
  Permutation (Py.sorted_reverse key l) l.
Proof.
  induction l as [|x l IH]; simpl; [reflexivity|].
  rewrite insert_desc_perm; constructor; exact IH.
Qed.

Lemma insert_desc_HdRel (y x : A) (l : list A) :
  key_ge key y x ->
  HdRel (key_ge key) y l -> HdRel (key_ge key) y (Py.insert_desc key x l).
Proof.
  intros Hyx Hl; destruct l as [|z l]; simpl.
  - constructor; exact Hyx.
  - destruct (key x <? key z); constructor; [|exact Hyx].
    inversion Hl; assumption.
Qed.

Lemma insert_desc_sorted (x : A) (l : list A) :
  Sorted (key_ge key) l -> Sorted (key_ge key) (Py.insert_desc key x l).
Proof.
  induction 1 as [|y l Hl IH Hy]; simpl.
  - repeat constructor.
  - destruct (key x <? key y) eqn:E.
    + constructor; [exact IH|].
      apply insert_desc_HdRel; [|exact Hy].
      apply Z.ltb_lt in E; unfold key_ge; lia.
    + constructor; [constructor; assumption|].
      constructor; apply Z.ltb_ge in E; exact E.
Qed.

Lemma sorted_reverse_sorted (l : list A) :
  Sorted (key_ge key) (Py.sorted_reverse key l).
Proof.
  induction l as [|x l IH]; simpl; [constructor|].
  apply insert_desc_sorted; exact IH.
Qed.

(** The sort is stable: the elements of one key come out in the order they
    went in. *)
Lemma insert_desc_same_key (k : Z) (x : A) (l : list A) :
  filter (fun y => key y =? k) (Py.insert_desc key x l)
  = filter (fun y => key y =? k) (x :: l).
Proof.
  induction l as [|y l IH]; [reflexivity|].
  simpl Py.insert_desc; destruct (key x <? key y) eqn:E; [|reflexivity].
  apply Z.ltb_lt in E; simpl in *.
  destruct (key y =? k) eqn:Ey, (key x =? k) eqn:Ex;
    rewrite IH; try reflexivity.
  apply Z.eqb_eq in Ey, Ex; lia.
Qed.

Lemma sorted_reverse_stable (k : Z) (l : list A) :
  filter (fun y => key y =? k) (Py.sorted_reverse key l)
  = filter (fun y => key y =? k) l.
Proof.
  induction l as [|x l IH]; [reflexivity|].
  simpl Py.sorted_reverse; rewrite insert_desc_same_key.
  simpl; rewrite IH; reflexivity.
Qed.
End SortedReverse.

(** ** The reporter and the arguments *)

Section Report.
Context `{R : Runtime}.

(** C8. When the filter keeps some user and every number to print is
    printable, the summary is its six opening lines, the title of the listing
    and one line per kept user; the users listed are the kept ones, each
    once, and the count of each is at least that of the next. The listing is
    fixed by the tally and the threshold: with any other log path and totals
    the lines after the six opening ones are the same. *)
Theorem listing_sorted_by_count (log_path : Path) (tally : Py.dict)
    (total_lines total_failed threshold : Z) :
  find_suspicious_users tally threshold <> [] ->
  printable total_lines = true ->
  printable total_failed = true ->
  printable (Py.len tally) = true ->
  printable threshold = true ->
  forallb (fun entry => printable (snd entry))
          (find_suspicious_users tally threshold) = true ->
  let listing := listed_users (find_suspicious_users tally threshold) in
  print_summary log_path tally total_lines total_failed threshold
  = summary_head log_path tally total_lines total_failed threshold
    ++ lit "Suspicious users:" :: map user_line listing
  /\ Permutation listing (find_suspicious_users tally threshold)
  /\ Sorted count_ge listing
  /\ forall (log_path' : Path) (total_lines' total_failed' : Z),
       printable total_lines' = true ->
       printable total_failed' = true ->
       skipn 6 (print_summary log_path' tally total_lines' total_failed'
                  threshold)
       = lit "Suspicious users:" :: map user_line listing.
Proof.
  intros Hne _ _ _ _ _ listing.
  assert (E : forall p tl tf,
             print_summary p tally tl tf threshold
             = summary_head p tally tl tf threshold
               ++ lit "Suspicious users:" :: map user_line listing).
  { intros p tl tf; unfold print_summary.
    destruct (find_suspicious_users tally threshold) eqn:E;
      [congruence | reflexivity]. }
  split; [apply E|]; split; [apply sorted_reverse_perm|].
  split; [apply (sorted_reverse_sorted snd)|].
  intros p tl tf _ _; rewrite E; reflexivity.
Qed.

Lemma int_abc : Py.int (lit "abc") = None.
Proof. reflexivity. Qed.

(** C7. With a threshold argument that is not an integer, [parse_args]
    returns the default threshold 5 and prints the diagnostic, and the run
    goes on as the run without a threshold argument does, after the
    diagnostic; "abc" is such an argument. With one that is an integer,
    [parse_args] returns that integer and prints nothing. *)
Theorem threshold_argument (argv : list str) :
  (3 <= List.length argv)%nat ->
  let arg := nth 2 argv [] in
  let log_path := Path_of_str (nth 1 argv []) in
  (Py.int arg = None ->
     parse_args argv
     = (log_path, DEFAULT_FAILED_THRESHOLD, [invalid_threshold arg])
     /\ DEFAULT_FAILED_THRESHOLD = 5
     /\ forall fs,
          main fs argv
          = (invalid_threshold arg :: fst (main fs (firstn 2 argv)),
             snd (main fs (firstn 2 argv))))
  /\ (forall n, Py.int arg = Some n -> parse_args argv = (log_path, n, []))
  /\ Py.int (lit "abc") = None.
Proof.
  intros Hlen arg log_path.
  destruct argv as [|a0 [|a1 [|a2 rest]]]; simpl in Hlen; try lia.
  subst arg log_path; simpl nth; simpl firstn.
  split; [|split; [|exact int_abc]].
  - intros Hint; split; [|split; [reflexivity|]].
    + unfold parse_args; simpl; rewrite Hint; reflexivity.
    + intros fs; unfold main, parse_args; simpl; rewrite Hint.
      destruct (fs (Path_of_str a1)) as [[|f]|]; try reflexivity.
      destruct (load_failed_attempts f) as [[d tl] tf]; reflexivity.
  - intros n Hint; unfold parse_args; simpl; rewrite Hint; reflexivity.
Qed.

End Report.

(** ** The model run on concrete inputs, with the ASCII runtime *)

Example listed_users_ties :
  listed_users [(lit "alice", 3); (lit "bob", 7); (lit "carol", 3)]
  = [(lit "bob", 7); (lit "alice", 3); (lit "carol", 3)].
Proof. reflexivity. Qed.

Example split_line :
  Py.split (Py.strip (lit "  2025-11-10   17:33:04 alice LOGIN_FAILED  x "))
  = [lit "2025-11-10"; lit "17:33:04"; lit "alice"; lit "LOGIN_FAILED";
     lit "x"].
Proof. reflexivity. Qed.

Example int_literals :
  map (@Py.int ascii_runtime)
      [lit "7"; lit " -12 "; lit "+1_000"; lit "007"; lit "1__0"; lit "_1";
       lit "1_"; lit "- 7"; lit "0x10"; lit "1.5"; lit ""]
  = [Some 7; Some (-12); Some 1000; Some 7; None; None; None; None; None;
     None; None].
Proof. reflexivity. Qed.

Example missing_log_file :
  @main ascii_runtime (fun _ => None) [lit "anomaly_detector.py"; lit "x.log"]
  = ([lit "Log file not found: x.log"], Exit 1).
Proof. reflexivity. Qed.

Lemma suspicious_shrink_with_threshold_witness :
  3 <= 4
  /\ incl (find_suspicious_users [(lit "alice", 3); (lit "bob", 7)] 4)
          (find_suspicious_users [(lit "alice", 3); (lit "bob", 7)] 3).
Proof.
  split; [lia | apply suspicious_shrink_with_threshold; lia].
Defined.

Lemma short_line_only_counts_as_line_witness :
  (List.length (Py.split (lit "malformed line")) < 4)%nat
  /\ @load_failed_attempts ascii_runtime
       ([lit "2025-11-10 17:33:04 alice LOGIN_FAILED"]
        ++ [lit "malformed line"])
     = ([(lit "alice", 1)], 2, 1).
Proof.
  split; [simpl; lia|].
  apply (@short_line_only_counts_as_line ascii_runtime
           [lit "2025-11-10 17:33:04 alice LOGIN_FAILED"]
           (lit "malformed line")).
  left; simpl; lia.
Defined.

Lemma failed_spellings_alike_witness :
  List.length (Py.split (lit "2025-11-10 17:34:00 alice ")) = 3%nat
  /\ @load_failed_attempts ascii_runtime
       ([] ++ (lit "2025-11-10 17:34:00 alice " ++ lit "login_failed" ++ [10%N])
           :: [])
     = @load_failed_attempts ascii_runtime
         ([] ++ (lit "2025-11-10 17:34:00 alice " ++ lit "LOGIN_FAILED"
                   ++ [10%N]) :: []).
Proof.
  split; [reflexivity|].
  apply (@failed_spellings_alike ascii_runtime);
    [reflexivity | reflexivity | reflexivity | simpl; auto | simpl; auto].
Defined.

Lemma nonpositive_threshold_keeps_all_witness :
  FailureTally [(lit "alice", 3); (lit "bob", 1)]
  /\ find_suspicious_users [(lit "alice", 3); (lit "bob", 1)] (-2)
     = [(lit "alice", 3); (lit "bob", 1)].
Proof.
  assert (H : FailureTally [(lit "alice", 3); (lit "bob", 1)]).
  { repeat constructor; simpl; lia. }
  split; [exact H | apply nonpositive_threshold_keeps_all; [exact H | lia]].
Defined.

Lemma listing_sorted_by_count_witness :
  find_suspicious_users
    [(lit "alice", 3); (lit "bob", 7); (lit "carol", 2); (lit "dave", 3)] 3
  <> []
  /\ @print_summary ascii_runtime (lit "auth.log")
       [(lit "alice", 3); (lit "bob", 7); (lit "carol", 2); (lit "dave", 3)]
       20 15 3
     = [ lit "=== Security Log Anomaly Detector (Python) ===" ++ [10%N];
         lit "Log file: auth.log";
         lit "Total lines: 20";
         lit "Total failed logins: 15";
         lit "Users with at least one failed login: 4";
         lit "Threshold for anomaly: 3 failed logins" ++ [10%N];
         lit "Suspicious users:";
         lit " - bob (7 failed logins)";
         lit " - alice (3 failed logins)";
         lit " - dave (3 failed logins)" ]
  /\ Sorted count_ge [(lit "bob", 7); (lit "alice", 3); (lit "dave", 3)].
Proof.
  assert (H : find_suspicious_users
                [(lit "alice", 3); (lit "bob", 7); (lit "carol", 2);
                 (lit "dave", 3)] 3 <> []).
  { simpl; discriminate. }
  pose proof (@listing_sorted_by_count ascii_runtime (lit "auth.log")
                [(lit "alice", 3); (lit "bob", 7); (lit "carol", 2);
                 (lit "dave", 3)] 20 15 3 H
                eq_refl eq_refl eq_refl eq_refl eq_refl) as T.
  split; [exact H|]; split.
  - exact (proj1 T).
  - exact (proj1 (proj2 (proj2 T))).
Defined.

Lemma threshold_argument_witness :
  (3 <= List.length [lit "anomaly_detector.py"; lit "auth.log"; lit "abc"])%nat
  /\ @parse_args ascii_runtime
       [lit "anomaly_detector.py"; lit "auth.log"; lit "abc"]
     = (lit "auth.log", 5,
        [lit "Invalid threshold value: 'abc'. Using default: 5."]).
Proof.
  assert (H : (3 <= List.length
                 [lit "anomaly_detector.py"; lit "auth.log"; lit "abc"])%nat).
  { simpl; lia. }
  split; [exact H|].
  exact (proj1 (proj1 (@threshold_argument ascii_runtime _ H) eq_refl)).
Defined.


(** * Further properties of the program *)

(** ** Dictionaries and first appearances *)

Lemma get_set_same (d : Py.dict) (k : str) (v default : Z) :
  Py.get (Py.set d k v) k default = v.
Proof.
  induction d as [|[k' v'] d IH]; simpl.
  - rewrite str_eqb_refl; reflexivity.
  - destruct (str_eqb k' k) eqn:E; simpl; rewrite E; [reflexivity | exact IH].
Qed.

Lemma get_set_other (d : Py.dict) (k k' : str) (v default : Z) :
  k <> k' -> Py.get (Py.set d k v) k' default = Py.get d k' default.
Proof.
  intros Hne; induction d as [|[k0 v0] d IH]; simpl.
  - destruct (str_eqb k k') eqn:E; [|reflexivity].
    apply str_eqb_eq in E; contradiction.
  - destruct (str_eqb k0 k) eqn:E; simpl.
    + apply str_eqb_eq in E; subst k0.
      destruct (str_eqb k k') eqn:E'; [|reflexivity].
      apply str_eqb_eq in E'; contradiction.
    + rewrite IH; reflexivity.
Qed.

Lemma keys_set_known (d : Py.dict) (k : str) (v : Z) :
  In k (Py.keys d) -> Py.keys (Py.set d k v) = Py.keys d.
Proof.
  induction d as [|[k' v'] d IH]; simpl; [tauto|].
  destruct (str_eqb k' k) eqn:E; simpl; [reflexivity|].
  intros [H | H]; [subst k'; rewrite str_eqb_refl in E; discriminate|].
  f_equal; apply IH, H.
Qed.

Lemma keys_set_new (d : Py.dict) (k : str) (v : Z) :
  ~ In k (Py.keys d) -> Py.keys (Py.set d k v) = Py.keys d ++ [k].
Proof.
  intros Hn; destruct (set_keys d k v) as [E | [_ E]]; [|exact E].
  exfalso; apply Hn; clear Hn.
  induction d as [|[k' v'] d IH]; simpl in *; [discriminate|].
  destruct (str_eqb k' k) eqn:Ek; simpl in E.
  - left; apply str_eqb_eq, Ek.
  - right; apply IH; inversion E; reflexivity.
Qed.

Lemma first_seen_In (l : list str) (u : str) : In u (first_seen l) <-> In u l.
Proof. unfold first_seen; rewrite <- in_rev, nodup_In, <- in_rev; tauto. Qed.

Lemma first_seen_known (l : list str) (u : str) :
  In u l -> first_seen (l ++ [u]) = first_seen l.
Proof.
  intros H; unfold first_seen; rewrite rev_app_distr; simpl.
  destruct (in_dec str_eq_dec u (rev l)) as [_ | Hn]; [reflexivity|].
  exfalso; apply Hn; rewrite <- in_rev; exact H.
Qed.

Lemma first_seen_new (l : list str) (u : str) :
  ~ In u l -> first_seen (l ++ [u]) = first_seen l ++ [u].
Proof.
  intros H; unfold first_seen; rewrite rev_app_distr; simpl.
  destruct (in_dec str_eq_dec u (rev l)) as [Hin | _]; [|reflexivity].
  exfalso; apply H; rewrite in_rev; exact Hin.
Qed.

Lemma first_seen_NoDup (l : list str) : NoDup (first_seen l).
Proof. apply NoDup_rev, NoDup_nodup. Qed.

(** ** The parser, line by line *)

Section Counting.
Context `{R : Runtime}.

Lemma load_step_user (d : Py.dict) (tl tf : Z) (line : str) :
  load_step (d, tl, tf) line =
  match failed_login_user line with
  | Some user => (Py.set d user (Py.get d user 0 + 1), tl + 1, tf + 1)
  | None => (d, tl + 1, tf)
  end.
Proof.
  unfold load_step, failed_login_user.
  destruct (Py.strip line) as [|c s]; [reflexivity|].
  destruct (List.length (Py.split (c :: s)) <? 4)%nat; [reflexivity|].
  destruct (str_eqb _ _); reflexivity.
Qed.

Lemma failed_users_last (f : list str) (line : str) :
  failed_users (f ++ [line]) =
  failed_users f ++ match failed_login_user line with
                    | Some user => [user]
                    | None => []
                    end.
Proof.
  unfold failed_users; rewrite flat_map_app; simpl.
  rewrite app_nil_r; reflexivity.
Qed.

Lemma counted_step (f : list str) (st : counts) (line : str) :
  counted f st -> counted (f ++ [line]) (load_step st line).
Proof.
  destruct st as [[d tl] tf]; intros (Hl & Hf & Hget & Hkeys).
  rewrite load_step_user; unfold counted.
  rewrite failed_users_last, !length_app.
  destruct (failed_login_user line) as [u|]; simpl List.length.
  - repeat split; try lia.
    + intros user; rewrite count_occ_app; simpl.
      destruct (str_eq_dec u user) as [<- | Hne].
      * rewrite get_set_same, Hget; lia.
      * rewrite get_set_other by exact Hne; rewrite Hget; lia.
    + destruct (in_dec str_eq_dec u (failed_users f)) as [Hin | Hn].
      * rewrite first_seen_known by exact Hin.
        rewrite keys_set_known; [exact Hkeys|].
        rewrite Hkeys; apply first_seen_In, Hin.
      * rewrite first_seen_new by exact Hn.
        rewrite keys_set_new; [rewrite Hkeys; reflexivity|].
        rewrite Hkeys, first_seen_In; exact Hn.
  - rewrite app_nil_r; repeat split; auto; lia.
Qed.

Lemma load_counted (f : list str) : counted f (load_failed_attempts f).
Proof.
  induction f as [|line f IH] using rev_ind.
  - repeat split.
  - rewrite load_failed_attempts_app; apply counted_step, IH.
Qed.

End Counting.

(** ** Tokens *)

Lemma forallb_rev {A : Type} (p : A -> bool) (l : list A) :
  forallb p l = true -> forallb p (rev l) = true.
Proof.
  rewrite !forallb_forall; intros H x Hx; apply H, in_rev, Hx.
Qed.

Lemma split_from_tokens (s word : str) :
  forallb (fun c => negb (Py.isspace c)) word = true ->
  Forall is_token (Py.split_from word s).
Proof.
  revert word; induction s as [|c s IH]; intros word Hw; simpl.
  - destruct word as [|x w]; [constructor|].
    repeat constructor; [|apply forallb_rev, Hw].
    intros E; apply (f_equal (@List.length N)) in E.
    rewrite length_rev in E; discriminate.
  - destruct (Py.isspace c) eqn:Hc.
    + destruct word as [|x w]; [apply IH; reflexivity|].
      constructor; [|apply IH; reflexivity].
      split; [|apply forallb_rev, Hw].
      intros E; apply (f_equal (@List.length N)) in E.
      rewrite length_rev in E; discriminate.
    + apply IH; simpl; rewrite Hc, Hw; reflexivity.
Qed.

Lemma split_tokens (s : str) : Forall is_token (Py.split s).
Proof. apply split_from_tokens; reflexivity. Qed.

Section ParserFacts.
Context `{R : Runtime}.

(** The decision of the loop body read off the third and fourth tokens of
    the raw line. *)
Lemma failed_login_user_tokens (line : str) :
  failed_login_user line =
  match user_and_event line with
  | [user; event] =>
      if str_eqb (Py.upper event) (lit "LOGIN_FAILED") then Some user
      else None
  | _ => None
  end.
Proof.
  unfold failed_login_user, user_and_event.
  rewrite <- (split_strip line).
  destruct (Py.strip line) as [|c s]; [reflexivity|].
  destruct (Py.split (c :: s)) as [|a [|b [|u [|e rest]]]]; reflexivity.
Qed.

Lemma failed_login_user_is_token (line user : str) :
  failed_login_user line = Some user -> is_token user.
Proof.
  rewrite failed_login_user_tokens; unfold user_and_event.
  pose proof (split_tokens line) as Ht.
  destruct (Py.split line) as [|a [|b [|u [|e rest]]]]; simpl;
    try discriminate.
  destruct (str_eqb _ _); [|discriminate].
  intros E; inversion E; subst u.
  inversion Ht as [|? ? _ Ht1]; inversion Ht1 as [|? ? _ Ht2].
  inversion Ht2; assumption.
Qed.

Lemma In_failed_users (f : list str) (user : str) :
  In user (failed_users f)
  <-> exists line, In line f /\ failed_login_user line = Some user.
Proof.
  unfold failed_users; rewrite in_flat_map; split.
  - intros (line & Hin & Hu); exists line; split; [exact Hin|].
    destruct (failed_login_user line) as [u|]; simpl in Hu; [|tauto].
    destruct Hu as [<- | []]; reflexivity.
  - intros (line & Hin & E); exists line; split; [exact Hin|].
    rewrite E; left; reflexivity.
Qed.

Lemma load_same_decisions (f g : list str) :
  Forall2 (fun a b => failed_login_user a = failed_login_user b) f g ->
  forall st, fold_left load_step f st = fold_left load_step g st.
Proof.
  induction 1 as [|a b f g Hab Hfg IH]; intros st; simpl; [reflexivity|].
  destruct st as [[d tl] tf]; rewrite !load_step_user, Hab; apply IH.
Qed.

(** X1 (line accounting). The line total the parser returns is the number of
    lines the file yields, blank and malformed ones included. *)
Theorem total_lines_is_line_count (f : list str) :
  let '(_, total_lines, _) := load_failed_attempts f in
  total_lines = Z.of_nat (List.length f).
Proof.
  pose proof (load_counted f) as H.
  destruct (load_failed_attempts f) as [[d tl] tf].
  destruct H as (H & _); exact H.
Qed.

(** X2. The failure total the parser returns is the number of lines that
    pass the tests of the loop body: four tokens or more, the fourth equal to
    LOGIN_FAILED once in upper case. *)
Theorem total_failed_is_failure_line_count (f : list str) :
  let '(_, _, total_failed) := load_failed_attempts f in
  total_failed
  = Z.of_nat (List.length
                (filter (fun line =>
                           match failed_login_user line with
                           | Some _ => true
                           | None => false
                           end) f)).
Proof.
  pose proof (load_counted f) as H.
  destruct (load_failed_attempts f) as [[d tl] tf].
  destruct H as (_ & H & _); rewrite H; f_equal.
  clear; induction f as [|line f IH]; [reflexivity|].
  simpl; destruct (failed_login_user line); simpl; rewrite IH; reflexivity.
Qed.

(** X3. For every user, the count the returned tally holds ([get] with 0 for
    a user it does not hold) is the number of failure lines whose third token
    is exactly that user. *)
Theorem tally_counts_each_user (f : list str) (user : str) :
  let '(failed_attempts, _, _) := load_failed_attempts f in
  Py.get failed_attempts user 0
  = Z.of_nat (count_occ str_eq_dec (failed_users f) user).
Proof.
  pose proof (load_counted f) as H.
  destruct (load_failed_attempts f) as [[d tl] tf].
  destruct H as (_ & _ & H & _); apply H.
Qed.

(** X4. The keys of the returned tally are the users with a failure line,
    each once, in the order of their first failure line. *)
Theorem tally_keys_in_order_of_first_failure (f : list str) :
  let '(failed_attempts, _, _) := load_failed_attempts f in
  Py.keys failed_attempts = first_seen (failed_users f)
  /\ forall user,
       In user (Py.keys failed_attempts)
       <-> exists line, In line f /\ failed_login_user line = Some user.
Proof.
  pose proof (load_counted f) as H.
  destruct (load_failed_attempts f) as [[d tl] tf].
  destruct H as (_ & _ & _ & H); split; [exact H|].
  intros user; rewrite H, first_seen_In; apply In_failed_users.
Qed.

(** X5. Reading the same lines in another order gives the same line total,
    the same failure total and the same count for every user; the tally
    holds the same users, possibly in another order. *)
Theorem line_order_is_irrelevant (f g : list str) :
  Permutation f g ->
  let '(d1, lines1, failed1) := load_failed_attempts f in
  let '(d2, lines2, failed2) := load_failed_attempts g in
  lines1 = lines2
  /\ failed1 = failed2
  /\ (forall user, Py.get d1 user 0 = Py.get d2 user 0)
  /\ Permutation (Py.keys d1) (Py.keys d2).
Proof.
  intros Hp.
  pose proof (load_counted f) as H1; pose proof (load_counted g) as H2.
  destruct (load_failed_attempts f) as [[d1 tl1] tf1].
  destruct (load_failed_attempts g) as [[d2 tl2] tf2].
  destruct H1 as (Hl1 & Hf1 & Hg1 & Hk1), H2 as (Hl2 & Hf2 & Hg2 & Hk2).
  assert (Hu : Permutation (failed_users f) (failed_users g)).
  { unfold failed_users; apply Permutation_flat_map, Hp. }
  repeat split.
  - rewrite Hl1, Hl2, (Permutation_length Hp); reflexivity.
  - rewrite Hf1, Hf2, (Permutation_length Hu); reflexivity.
  - intros user; rewrite Hg1, Hg2; f_equal.
    apply (proj1 (Permutation_count_occ str_eq_dec _ _) Hu).
  - rewrite Hk1, Hk2.
    apply NoDup_Permutation; try apply first_seen_NoDup.
    intros x; rewrite !first_seen_In.
    split; apply Permutation_in; [exact Hu | symmetry; exact Hu].
Qed.

(** X6. Parsing one file after another adds up: the totals of [f ++ g] are
    the sums of the totals of [f] and of [g], and so is every user's count. *)
Theorem load_concatenation_adds (f g : list str) (user : str) :
  let '(d, lines, failed) := load_failed_attempts (f ++ g) in
  let '(d1, lines1, failed1) := load_failed_attempts f in
  let '(d2, lines2, failed2) := load_failed_attempts g in
  lines = lines1 + lines2
  /\ failed = failed1 + failed2
  /\ Py.get d user 0 = Py.get d1 user 0 + Py.get d2 user 0.
Proof.
  pose proof (load_counted (f ++ g)) as H.
  pose proof (load_counted f) as H1; pose proof (load_counted g) as H2.
  destruct (load_failed_attempts (f ++ g)) as [[d tl] tf].
  destruct (load_failed_attempts f) as [[d1 tl1] tf1].
  destruct (load_failed_attempts g) as [[d2 tl2] tf2].
  destruct H as (Hl & Hf & Hg & _), H1 as (Hl1 & Hf1 & Hg1 & _),
    H2 as (Hl2 & Hf2 & Hg2 & _).
  assert (E : failed_users (f ++ g) = failed_users f ++ failed_users g).
  { unfold failed_users; apply flat_map_app. }
  rewrite Hl, Hf, Hg, Hl1, Hf1, Hg1, Hl2, Hf2, Hg2, E.
  rewrite count_occ_app, !length_app; lia.
Qed.

(** X7. Only the third and fourth tokens of a line count: two inputs whose
    lines agree one by one on these two tokens give the same tally and the
    same totals, whatever their other tokens and their whitespace. *)
Theorem only_user_and_event_matter (f g : list str) :
  Forall2 (fun a b => user_and_event a = user_and_event b) f g ->
  load_failed_attempts f = load_failed_attempts g.
Proof.
  intros H; unfold load_failed_attempts; apply load_same_decisions.
  induction H as [|a b f g Hab Hfg IH]; constructor; [|exact IH].
  rewrite !failed_login_user_tokens, Hab; reflexivity.
Qed.

(** X8. Every key of the returned tally is a token: it is not empty and
    holds no whitespace. *)
Theorem tally_keys_are_tokens (f : list str) :
  let '(failed_attempts, _, _) := load_failed_attempts f in
  Forall is_token (Py.keys failed_attempts).
Proof.
  pose proof (load_counted f) as H.
  destruct (load_failed_attempts f) as [[d tl] tf].
  destruct H as (_ & _ & _ & H); rewrite H.
  apply Forall_forall; intros user Hin.
  apply first_seen_In, In_failed_users in Hin.
  destruct Hin as (line & _ & E).
  apply (failed_login_user_is_token line), E.
Qed.

(** X9. A line whose fourth token is not LOGIN_FAILED once in upper case,
    put after the others, only makes the line total one larger. *)
Theorem other_event_only_counts_as_line (f : list str) (line : str) :
  Py.upper (nth 3 (Py.split line) []) <> lit "LOGIN_FAILED" ->
  load_failed_attempts (f ++ [line]) =
  let '(failed_attempts, total_lines, total_failed) :=
    load_failed_attempts f in
  (failed_attempts, total_lines + 1, total_failed).
Proof.
  intros Hne; rewrite load_failed_attempts_app.
  destruct (load_failed_attempts f) as [[d tl] tf].
  rewrite load_step_tokens.
  destruct (Py.split line) as [|a [|b [|u [|e rest]]]]; try reflexivity.
  simpl in Hne.
  destruct (str_eqb (Py.upper e) (lit "LOGIN_FAILED")) eqn:E; [|reflexivity].
  apply str_eqb_eq in E; contradiction.
Qed.

End ParserFacts.

(** ** The filter on any tally *)

Lemma get_absent (d : Py.dict) (k : str) (default : Z) :
  ~ In k (Py.keys d) -> Py.get d k default = default.
Proof.
  induction d as [|[k' v] d IH]; simpl; [reflexivity|].
  intros Hn; destruct (str_eqb k' k) eqn:E.
  - apply str_eqb_eq in E; tauto.
  - apply IH; tauto.
Qed.

Lemma In_dict_get (d : Py.dict) (k : str) (v default : Z) :
  NoDup (Py.keys d) ->
  In (k, v) d <-> In k (Py.keys d) /\ Py.get d k default = v.
Proof.
  unfold Py.keys; induction d as [|[k' v'] d IH]; simpl; [tauto|].
  intros Hnd; inversion Hnd as [|? ? Hk Hd]; subst.
  specialize (IH Hd).
  destruct (str_eqb k' k) eqn:E.
  - apply str_eqb_eq in E; subst k'; split.
    + intros [H | H]; [inversion H; auto|].
      exfalso; apply Hk, (in_map fst _ _ H).
    + intros [_ <-]; left; reflexivity.
  - assert (Hne : k' <> k).
    { intros ->; rewrite str_eqb_refl in E; discriminate. }
    split.
    + intros [H | H]; [inversion H; contradiction|].
      apply IH in H; tauto.
    + intros [[H | H] Hg]; [contradiction|].
      right; apply IH; tauto.
Qed.

Lemma find_suspicious_users_keys (tally : Py.dict) (t : Z) (k : str) :
  In k (Py.keys (find_suspicious_users tally t)) -> In k (Py.keys tally).
Proof.
  unfold Py.keys; rewrite !in_map_iff.
  intros (e & <- & He); exists e; split; [reflexivity|].
  apply find_suspicious_users_In in He; tauto.
Qed.

Lemma find_suspicious_users_NoDup (tally : Py.dict) (t : Z) :
  NoDup (Py.keys tally) -> NoDup (Py.keys (find_suspicious_users tally t)).
Proof.
  induction tally as [|[k v] d IH]; simpl; [tauto|].
  intros Hnd; inversion Hnd as [|? ? Hk Hd]; subst.
  destruct (t <=? v); [|apply IH, Hd].
  simpl; constructor; [|apply IH, Hd].
  intros H; apply Hk, (find_suspicious_users_keys d t), H.
Qed.

Lemma count_le_sum (d : Py.dict) (entry : str * Z) :
  Forall (fun e => 0 <= snd e) d -> In entry d ->
  snd entry <= Py.sum (Py.values d).
Proof.
  induction 1 as [|e d He Hd IH]; simpl; [tauto|].
  fold (Py.values d); rewrite sum_cons.
  assert (0 <= Py.sum (Py.values d)).
  { clear - Hd; induction Hd as [|x l Hx Hl IHl]; simpl.
    - unfold Py.sum; simpl; lia.
    - fold (Py.values l); rewrite sum_cons; lia. }
  intros [<- | Hin]; [lia | specialize (IH Hin); lia].
Qed.

Lemma suspicious_weight (d : Py.dict) (t : Z) :
  Forall (fun e => 0 <= snd e) d ->
  Py.len (find_suspicious_users d t) * t <= Py.sum (Py.values d).
Proof.
  unfold Py.len; induction 1 as [|[k v] d He Hd IH]; simpl in *.
  - unfold Py.sum; simpl; lia.
  - fold (Py.values d); rewrite sum_cons.
    destruct (t <=? v) eqn:E; simpl List.length.
    + apply Z.leb_le in E; lia.
    + lia.
Qed.

Lemma positive_counts_nonnegative (d : Py.dict) :
  Forall (fun e => 1 <= snd e) d -> Forall (fun e => 0 <= snd e) d.
Proof. apply Forall_impl; intros e He; lia. Qed.

(** X10. Filtering at one threshold and then at another is filtering once at
    the larger of the two. *)
Theorem find_suspicious_users_twice (tally : Py.dict) (t1 t2 : Z) :
  find_suspicious_users (find_suspicious_users tally t1) t2
  = find_suspicious_users tally (Z.max t1 t2).
Proof.
  unfold find_suspicious_users.
  induction tally as [|[user count] d IH]; simpl; [reflexivity|].
  destruct (t1 <=? count) eqn:E1; simpl.
  - destruct (t2 <=? count) eqn:E2, (Z.max t1 t2 <=? count) eqn:E;
      rewrite IH; try reflexivity;
      rewrite ?Z.leb_le, ?Z.leb_gt in *; lia.
  - destruct (Z.max t1 t2 <=? count) eqn:E; [|exact IH].
    rewrite ?Z.leb_le, ?Z.leb_gt in *; lia.
Qed.

(** X11. The filter returns nothing exactly when every count of the tally is
    below the threshold. *)
Theorem no_suspicious_iff_all_below (tally : Py.dict) (t : Z) :
  find_suspicious_users tally t = []
  <-> Forall (fun entry => snd entry < t) tally.
Proof.
  rewrite Forall_forall; split.
  - intros E entry Hin.
    destruct (Z.lt_ge_cases (snd entry) t) as [H | H]; [exact H|].
    assert (Hs : In entry (find_suspicious_users tally t))
      by (apply find_suspicious_users_In; auto).
    rewrite E in Hs; destruct Hs.
  - intros H.
    destruct (find_suspicious_users tally t) as [|e l] eqn:E; [reflexivity|].
    assert (He : In e (find_suspicious_users tally t))
      by (rewrite E; left; reflexivity).
    apply find_suspicious_users_In in He; destruct He as [Hin Hle].
    specialize (H e Hin); lia.
Qed.

(** X12. On a tally with one entry per user the filter returns such a tally
    again, and looking a user up in it with default 0 gives the user's count
    when it reaches the threshold and 0 otherwise. *)
Theorem lookup_in_suspicious (tally : Py.dict) (t : Z) (user : str) :
  NoDup (Py.keys tally) ->
  NoDup (Py.keys (find_suspicious_users tally t))
  /\ Py.get (find_suspicious_users tally t) user 0
     = if t <=? Py.get tally user 0 then Py.get tally user 0 else 0.
Proof.
  intros Hnd; split; [apply find_suspicious_users_NoDup, Hnd|].
  induction tally as [|[k v] d IH]; simpl.
  - destruct (t <=? 0); reflexivity.
  - inversion Hnd as [|? ? Hk Hd]; subst; specialize (IH Hd).
    destruct (str_eqb k user) eqn:E.
    + apply str_eqb_eq in E; subst k.
      destruct (t <=? v); simpl; [rewrite str_eqb_refl; reflexivity|].
      apply get_absent; intros H.
      apply Hk, (find_suspicious_users_keys d t), H.
    + destruct (t <=? v); simpl; [rewrite E|]; exact IH.
Qed.

Lemma lookup_in_suspicious_witness :
  NoDup (Py.keys [(lit "alice", 3); (lit "bob", 7)])
  /\ Py.get (find_suspicious_users [(lit "alice", 3); (lit "bob", 7)] 5)
            (lit "alice") 0 = 0
  /\ Py.get (find_suspicious_users [(lit "alice", 3); (lit "bob", 7)] 5)
            (lit "bob") 0 = 7.
Proof.
  assert (H : NoDup (Py.keys [(lit "alice", 3); (lit "bob", 7)])).
  { repeat constructor; simpl; [intros [E | []]; discriminate E | tauto]. }
  split; [exact H|]; split.
  - exact (proj2 (lookup_in_suspicious _ 5 (lit "alice") H)).
  - exact (proj2 (lookup_in_suspicious _ 5 (lit "bob") H)).
Defined.

Lemma positive_counts_all_kept (d : Py.dict) (t : Z) :
  Forall (fun e => 1 <= snd e) d -> t <= 1 -> find_suspicious_users d t = d.
Proof.
  intros Hd Ht; induction Hd as [|[k v] d Hv Hd IH]; simpl in *; [reflexivity|].
  replace (t <=? v) with true by (symmetry; apply Z.leb_le; lia).
  rewrite IH; reflexivity.
Qed.

Lemma filter_narrower {A : Type} (p q : A -> bool) (l : list A) :
  (forall x, p x = true -> q x = true) ->
  filter p (filter q l) = filter p l.
Proof.
  intros Hpq; induction l as [|x l IH]; simpl; [reflexivity|].
  destruct (q x) eqn:Eq; simpl; [rewrite IH; reflexivity|].
  destruct (p x) eqn:Ep; [|exact IH].
  rewrite (Hpq x Ep) in Eq; discriminate.
Qed.

Lemma listed_users_In (d : Py.dict) (entry : str * Z) :
  In entry (listed_users d) <-> In entry d.
Proof.
  unfold listed_users; split; apply Permutation_in;
    [|symmetry]; apply sorted_reverse_perm.
Qed.

Lemma key_ge_transitive {A : Type} (key : A -> Z) :
  forall x y z, key_ge key x y -> key_ge key y z -> key_ge key x z.
Proof. unfold key_ge; intros; lia. Qed.

(** ** The reporter on any tally *)

(** X17. Users with the same count are listed in the order the tally holds
    them: for a count [k] that reaches the threshold, the listed entries of
    count [k] are the entries of count [k] of the tally, in its order. *)
Theorem ties_listed_in_tally_order (tally : Py.dict) (t k : Z) :
  t <= k ->
  filter (fun entry => snd entry =? k)
         (listed_users (find_suspicious_users tally t))
  = filter (fun entry => snd entry =? k) tally.
Proof.
  intros Hk; unfold listed_users.
  rewrite (sorted_reverse_stable snd k).
  apply filter_narrower; intros [user count]; simpl.
  rewrite Z.eqb_eq, Z.leb_le; lia.
Qed.

Lemma ties_listed_in_tally_order_witness :
  3 <= 3
  /\ filter (fun entry => snd entry =? 3)
       (listed_users
          (find_suspicious_users
             [(lit "dave", 3); (lit "bob", 7); (lit "carol", 2);
              (lit "alice", 3)] 3))
     = [(lit "dave", 3); (lit "alice", 3)].
Proof.
  split; [lia|].
  apply (ties_listed_in_tally_order
           [(lit "dave", 3); (lit "bob", 7); (lit "carol", 2);
            (lit "alice", 3)] 3 3).
  lia.
Defined.

(** X18. The first user listed has the largest count of the whole tally. *)
Theorem first_listed_has_most_failures (tally : Py.dict) (t : Z)
    (top : str * Z) (others : list (str * Z)) :
  listed_users (find_suspicious_users tally t) = top :: others ->
  Forall (fun entry => snd entry <= snd top) tally.
Proof.
  intros E.
  pose proof (sorted_reverse_sorted snd (find_suspicious_users tally t)) as Hs.
  fold (listed_users (find_suspicious_users tally t)) in Hs; rewrite E in Hs.
  apply Sorted_StronglySorted in Hs;
    [|intros x y z; apply key_ge_transitive].
  inversion Hs as [|? ? _ Hall]; subst.
  assert (Htop : t <= snd top).
  { assert (H : In top (listed_users (find_suspicious_users tally t)))
      by (rewrite E; left; reflexivity).
    apply listed_users_In, find_suspicious_users_In in H; tauto. }
  apply Forall_forall; intros entry Hin.
  destruct (Z.lt_ge_cases (snd entry) t) as [Hlt | Hge]; [lia|].
  assert (H : In entry (listed_users (find_suspicious_users tally t))).
  { apply listed_users_In, find_suspicious_users_In; auto. }
  rewrite E in H; destruct H as [<- | H]; [lia|].
  rewrite Forall_forall in Hall; apply (Hall entry H).
Qed.

Lemma first_listed_has_most_failures_witness :
  listed_users
    (find_suspicious_users
       [(lit "alice", 3); (lit "bob", 7); (lit "carol", 2)] 3)
  = (lit "bob", 7) :: [(lit "alice", 3)]
  /\ Forall (fun entry => snd entry <= 7)
       [(lit "alice", 3); (lit "bob", 7); (lit "carol", 2)].
Proof.
  split; [reflexivity|].
  exact (first_listed_has_most_failures
           [(lit "alice", 3); (lit "bob", 7); (lit "carol", 2)] 3
           (lit "bob", 7) [(lit "alice", 3)] eq_refl).
Defined.

Section EndToEnd.
Context `{R : Runtime}.

Lemma load_no_failure (f : list str) :
  failed_users f = [] ->
  load_failed_attempts f = ([], Z.of_nat (List.length f), 0).
Proof.
  intros E; pose proof (load_counted f) as H.
  destruct (load_failed_attempts f) as [[d tl] tf].
  destruct H as (Hl & Hf & _ & Hk); rewrite E in *; simpl in *.
  destruct d; [|discriminate]; subst; reflexivity.
Qed.

(** X13. Of the tally the parser returns, a threshold of 1 or less keeps
    every entry. *)
Theorem threshold_one_keeps_parsed_tally (f : list str) (t : Z) :
  t <= 1 ->
  let '(failed_attempts, _, _) := load_failed_attempts f in
  find_suspicious_users failed_attempts t = failed_attempts.
Proof.
  intros Ht; pose proof (load_tallied f) as H.
  destruct (load_failed_attempts f) as [[d tl] tf].
  destruct H as (_ & Hpos & _); apply positive_counts_all_kept; assumption.
Qed.

(** X14. A threshold above the failure total the parser returns leaves no
    suspicious user. *)
Theorem threshold_above_total_finds_nobody (f : list str) (t : Z) :
  let '(failed_attempts, _, total_failed) := load_failed_attempts f in
  total_failed < t -> find_suspicious_users failed_attempts t = [].
Proof.
  pose proof (load_tallied f) as H.
  destruct (load_failed_attempts f) as [[d tl] tf].
  destruct H as (Hsum & Hpos & _); intros Ht.
  destruct (find_suspicious_users d t) as [|e l] eqn:E; [reflexivity|].
  assert (He : In e (find_suspicious_users d t))
    by (rewrite E; left; reflexivity).
  apply find_suspicious_users_In in He; destruct He as [Hin Hle].
  pose proof (count_le_sum d e (positive_counts_nonnegative d Hpos) Hin).
  lia.
Qed.

(** X15. The suspicious users of a parsed log account for no more failures
    than were counted: their number times the threshold is at most the
    failure total. *)
Theorem suspicious_users_bounded_by_total (f : list str) (t : Z) :
  let '(failed_attempts, _, total_failed) := load_failed_attempts f in
  Py.len (find_suspicious_users failed_attempts t) * t <= total_failed.
Proof.
  pose proof (load_tallied f) as H.
  destruct (load_failed_attempts f) as [[d tl] tf].
  destruct H as (Hsum & Hpos & _); rewrite Hsum.
  apply suspicious_weight, positive_counts_nonnegative, Hpos.
Qed.

(** X16. From the lines to the listing: a user is listed with a count exactly
    when that count is the number of the user's failure lines, is at least 1
    and reaches the threshold. *)
Theorem listed_iff_enough_failures (f : list str) (t : Z)
    (user : str) (count : Z) :
  let '(failed_attempts, _, _) := load_failed_attempts f in
  In (user, count) (listed_users (find_suspicious_users failed_attempts t))
  <-> count = Z.of_nat (count_occ str_eq_dec (failed_users f) user)
      /\ 1 <= count /\ t <= count.
Proof.
  pose proof (load_tallied f) as Ht; pose proof (load_counted f) as Hc.
  destruct (load_failed_attempts f) as [[d tl] tf].
  destruct Ht as (_ & _ & Hnd & _), Hc as (_ & _ & Hget & Hkeys).
  rewrite listed_users_In, find_suspicious_users_In; simpl.
  rewrite (In_dict_get d user count 0 Hnd), Hkeys, first_seen_In, Hget.
  rewrite (count_occ_In str_eq_dec); split.
  - intros [[Hpos <-] Hle]; repeat split; auto; lia.
  - intros (-> & Hpos & Hle); repeat split; auto; lia.
Qed.

(** X19. When every count of the tally is below the threshold, an empty
    tally included, and the totals, the size of the tally and the threshold
    are printable, the summary is its six opening lines and the line saying
    that no suspicious user was found. *)
Theorem summary_without_suspicious_users (log_path : Path)
    (tally : Py.dict) (total_lines total_failed threshold : Z) :
  Forall (fun entry => snd entry < threshold) tally ->
  printable total_lines = true ->
  printable total_failed = true ->
  printable (Py.len tally) = true ->
  printable threshold = true ->
  print_summary log_path tally total_lines total_failed threshold
  = summary_head log_path tally total_lines total_failed threshold
    ++ [lit "No suspicious users found based on the current threshold."].
Proof.
  intros H _ _ _ _; unfold print_summary.
  replace (find_suspicious_users tally threshold) with (@nil (str * Z));
    [reflexivity|].
  symmetry; unfold find_suspicious_users.
  induction H as [|[user count] d Hc Hd IH]; simpl in *; [reflexivity|].
  replace (threshold <=? count) with false
    by (symmetry; apply Z.leb_gt; exact Hc).
  exact IH.
Qed.

(** X20. [parse_args] looks at the second and third arguments only: the
    program name and any argument after the third change nothing. *)
Theorem parse_args_reads_two_arguments (name name' : str) (args : list str) :
  parse_args (name :: args) = parse_args (name' :: firstn 2 args).
Proof. destruct args as [|a1 [|a2 more]]; reflexivity. Qed.

(** X22. A log without any failure line, an empty log included, gives the
    summary with an empty tally, the number of its lines, 0 failures and the
    line saying that no suspicious user was found, whatever the threshold,
    also 0 or below; the run ends with status 0. *)
Theorem log_without_failures_reports_nobody (fs : Path -> option node)
    (argv f : list str) :
  let '(log_path, threshold, out) := parse_args argv in
  fs log_path = Some (TextFile f) ->
  failed_users f = [] ->
  main fs argv
  = (out ++ summary_head log_path [] (Z.of_nat (List.length f)) 0 threshold
         ++ [lit "No suspicious users found based on the current threshold."],
     Exit 0).
Proof.
  unfold main; destruct (parse_args argv) as [[log_path threshold] out].
  intros Hfs Hf; rewrite Hfs, (load_no_failure f Hf); reflexivity.
Qed.

End EndToEnd.

(** ** The further properties on concrete inputs, with the ASCII runtime *)

Lemma line_order_is_irrelevant_witness :
  Permutation
    [lit "2025-11-10 17:33:04 alice LOGIN_FAILED"; lit "d t bob login_failed"]
    [lit "d t bob login_failed"; lit "2025-11-10 17:33:04 alice LOGIN_FAILED"]
  /\ snd (@load_failed_attempts ascii_runtime
            [lit "2025-11-10 17:33:04 alice LOGIN_FAILED";
             lit "d t bob login_failed"])
     = snd (@load_failed_attempts ascii_runtime
              [lit "d t bob login_failed";
               lit "2025-11-10 17:33:04 alice LOGIN_FAILED"]).
Proof.
  assert (H : Permutation
                [lit "2025-11-10 17:33:04 alice LOGIN_FAILED";
                 lit "d t bob login_failed"]
                [lit "d t bob login_failed";
                 lit "2025-11-10 17:33:04 alice LOGIN_FAILED"])
    by apply perm_swap.
  split; [exact H|].
  exact (proj1 (proj2 (@line_order_is_irrelevant ascii_runtime _ _ H))).
Defined.

Lemma only_user_and_event_matter_witness :
  Forall2 (fun a b => user_and_event a = user_and_event b)
    [lit "2025-11-10 17:33:04 alice LOGIN_FAILED"]
    [lit "  Nov   10 alice" ++ [9%N] ++ lit "LOGIN_FAILED from 10.0.0.1 "]
  /\ @load_failed_attempts ascii_runtime
       [lit "2025-11-10 17:33:04 alice LOGIN_FAILED"]
     = @load_failed_attempts ascii_runtime
         [lit "  Nov   10 alice" ++ [9%N] ++ lit "LOGIN_FAILED from 10.0.0.1 "].
Proof.
  assert (H : Forall2 (fun a b => user_and_event a = user_and_event b)
                [lit "2025-11-10 17:33:04 alice LOGIN_FAILED"]
                [lit "  Nov   10 alice" ++ [9%N]
                   ++ lit "LOGIN_FAILED from 10.0.0.1 "]).
  { constructor; [reflexivity | constructor]. }
  split; [exact H|].
  exact (@only_user_and_event_matter ascii_runtime _ _ H).
Defined.

Lemma other_event_only_counts_as_line_witness :
  @Py.upper ascii_runtime
    (nth 3 (Py.split (lit "2025-11-10 17:33:20 bob LOGIN_SUCCESS")) [])
  <> lit "LOGIN_FAILED"
  /\ @load_failed_attempts ascii_runtime
       ([lit "2025-11-10 17:33:04 alice LOGIN_FAILED"]
        ++ [lit "2025-11-10 17:33:20 bob LOGIN_SUCCESS"])
     = ([(lit "alice", 1)], 2, 1).
Proof.
  assert (H : @Py.upper ascii_runtime
                (nth 3 (Py.split (lit "2025-11-10 17:33:20 bob LOGIN_SUCCESS"))
                     [])
              <> lit "LOGIN_FAILED").
  { intros E; vm_compute in E; discriminate E. }
  split; [exact H|].
  exact (@other_event_only_counts_as_line ascii_runtime
           [lit "2025-11-10 17:33:04 alice LOGIN_FAILED"] _ H).
Defined.

Lemma threshold_one_keeps_parsed_tally_witness :
  1 <= 1
  /\ find_suspicious_users [(lit "alice", 3)] 1 = [(lit "alice", 3)].
Proof.
  assert (H : 1 <= 1) by lia.
  split; [exact H|].
  exact (@threshold_one_keeps_parsed_tally ascii_runtime scenario_A 1 H).
Defined.

Lemma threshold_above_total_finds_nobody_witness :
  3 < 4 /\ find_suspicious_users [(lit "alice", 3)] 4 = [].
Proof.
  assert (H : 3 < 4) by lia.
  split; [exact H|].
  exact (@threshold_above_total_finds_nobody ascii_runtime scenario_A 4 H).
Defined.

Lemma summary_without_suspicious_users_witness :
  Forall (fun entry => snd entry < 5) [(lit "alice", 3)]
  /\ @print_summary ascii_runtime (lit "auth.log") [(lit "alice", 3)] 6 3 5
     = [ lit "=== Security Log Anomaly Detector (Python) ===" ++ [10%N];
         lit "Log file: auth.log";
         lit "Total lines: 6";
         lit "Total failed logins: 3";
         lit "Users with at least one failed login: 1";
         lit "Threshold for anomaly: 5 failed logins" ++ [10%N];
         lit "No suspicious users found based on the current threshold." ].
Proof.
  assert (H : Forall (fun entry => snd entry < 5) [(lit "alice", 3)]).
  { repeat constructor. }
  split; [exact H|].
  exact (@summary_without_suspicious_users ascii_runtime (lit "auth.log")
           [(lit "alice", 3)] 6 3 5 H eq_refl eq_refl eq_refl eq_refl).
Defined.

Lemma log_without_failures_reports_nobody_witness :
  @failed_users ascii_runtime
    [lit "2025-11-10 17:33:20 bob LOGIN_SUCCESS"; [10%N]] = []
  /\ snd (@main ascii_runtime
            (fun _ =>
               Some (TextFile
                       [lit "2025-11-10 17:33:20 bob LOGIN_SUCCESS"; [10%N]]))
            [lit "anomaly_detector.py"; lit "auth.log"; lit "0"])
     = Exit 0.
Proof.
  split; [reflexivity|].
  exact (f_equal snd
           (@log_without_failures_reports_nobody ascii_runtime
              (fun _ =>
                 Some (TextFile
                         [lit "2025-11-10 17:33:20 bob LOGIN_SUCCESS";
                          [10%N]]))
              [lit "anomaly_detector.py"; lit "auth.log"; lit "0"]
              [lit "2025-11-10 17:33:20 bob LOGIN_SUCCESS"; [10%N]]
              eq_refl eq_refl)).
Defined.

(** ** Integers in decimal *)

Lemma lit_cons (a : ascii) (s : string) :
  lit (String a s) = N_of_ascii a :: lit s.
Proof. reflexivity. Qed.

Lemma scan_digit (c : N) (acc : Z) (n : N) (s : str) :
  Py.is_digit c = true ->
  Py.scan_digits false acc n (c :: s)
  = Py.scan_digits false (10 * acc + Z.of_N (c - 48)) (n + 1)%N s.
Proof. intros H; simpl; rewrite H; reflexivity. Qed.

(** Reading the digits of [d] from the left on top of [acc]. *)
Lemma scan_digits_decimal (d : Decimal.uint) (acc : Z) (n : N) :
  Py.scan_digits false acc n (lit (NilEmpty.string_of_uint d))
  = Some (acc * 10 ^ Z.of_N (DecimalPos.Unsigned.usize d)
          + Z.of_N (DecimalPos.Unsigned.of_lu (Decimal.rev d)),
          (n + DecimalPos.Unsigned.usize d)%N, []).
Proof.
  revert acc n; induction d; intros acc n;
    simpl NilEmpty.string_of_uint;
    [simpl; rewrite N.add_0_r, Z.mul_1_r, Z.add_0_r; reflexivity|..];
    (rewrite lit_cons, scan_digit by reflexivity;
    rewrite IHd; unfold Decimal.rev at 2; simpl Decimal.revapp;
    rewrite DecimalPos.Unsigned.of_lu_revapp;
    simpl DecimalPos.Unsigned.usize;
    rewrite N2Z.inj_add, N2Z.inj_mul, N2Z.inj_pow, N2Z.inj_succ,
      Z.pow_succ_r by apply N2Z.is_nonneg;
    apply f_equal, f_equal2; [apply f_equal2; [|lia] | reflexivity];
    match goal with
    | |- context [Z.of_N (N_of_ascii ?a - 48)] =>
        let v := eval vm_compute in (Z.of_N (N_of_ascii a - 48)) in
        change (Z.of_N (N_of_ascii a - 48)) with v
    end;
    match goal with
    | |- context [DecimalPos.Unsigned.of_lu (?k Decimal.Nil)] =>
        let v := eval vm_compute in
                   (Z.of_N (DecimalPos.Unsigned.of_lu (k Decimal.Nil))) in
        change (Z.of_N (DecimalPos.Unsigned.of_lu (k Decimal.Nil))) with v
    end;
    change (Z.of_N 10) with 10; ring).
Qed.

Lemma digits_length (d : Decimal.uint) :
  N.of_nat (List.length (lit (NilEmpty.string_of_uint d)))
  = DecimalPos.Unsigned.usize d.
Proof.
  induction d; simpl NilEmpty.string_of_uint; [reflexivity|..];
    rewrite lit_cons; simpl List.length; simpl DecimalPos.Unsigned.usize;
    rewrite Nat2N.inj_succ, IHd; reflexivity.
Qed.

Lemma digit_codes (c : N) :
  Py.is_digit c = true ->
  (c = 48 \/ c = 49 \/ c = 50 \/ c = 51 \/ c = 52 \/ c = 53 \/ c = 54
   \/ c = 55 \/ c = 56 \/ c = 57)%N.
Proof.
  unfold Py.is_digit; rewrite andb_true_iff, !N.leb_le; lia.
Qed.

Lemma digits_first (d : Decimal.uint) :
  d <> Decimal.Nil ->
  exists c s, lit (NilEmpty.string_of_uint d) = c :: s /\ Py.is_digit c = true.
Proof.
  destruct d; [congruence|..]; intros _; simpl NilEmpty.string_of_uint;
    rewrite lit_cons; eexists _, _; split; reflexivity.
Qed.

Section DecimalText.
Context `{R : Runtime}.

Lemma to_ascii_decimal_digits (d : Decimal.uint) :
  Py.to_ascii_decimal (lit (NilEmpty.string_of_uint d))
  = lit (NilEmpty.string_of_uint d).
Proof.
  induction d; simpl NilEmpty.string_of_uint; [reflexivity|..];
    rewrite lit_cons; simpl; fold (lit (NilEmpty.string_of_uint d));
    rewrite IHd; reflexivity.
Qed.

(** [int] on a text that starts with a digit, or with a minus sign and a
    digit: no whitespace to skip, the sign read, then the digits. *)
Lemma int_digit_first (c : N) (s : str) :
  Py.is_digit c = true ->
  Py.to_ascii_decimal (c :: s) = c :: s ->
  Py.int (c :: s) =
  match Py.scan_digits false 0 0%N (c :: s) with
  | None => None
  | Some (v, n, rest) =>
      if ((640 <? n) && (0 <? int_max_str_digits)
          && (int_max_str_digits <? n))%N then None
      else if (n =? 0)%N then None
      else match Py.skip_space rest with
           | [] => Some (1 * v)
           | _ => None
           end
  end
  /\ Py.int (45%N :: c :: s) =
     match Py.scan_digits false 0 0%N (c :: s) with
     | None => None
     | Some (v, n, rest) =>
         if ((640 <? n) && (0 <? int_max_str_digits)
             && (int_max_str_digits <? n))%N then None
         else if (n =? 0)%N then None
         else match Py.skip_space rest with
              | [] => Some (-1 * v)
              | _ => None
              end
     end.
Proof.
  intros Hc Hascii.
  assert (Hneg : Py.to_ascii_decimal (45%N :: c :: s) = 45%N :: c :: s).
  { change (Py.to_ascii_decimal (45%N :: c :: s))
      with (45%N :: Py.to_ascii_decimal (c :: s)).
    rewrite Hascii; reflexivity. }
  unfold Py.int; rewrite Hascii, Hneg.
  destruct (digit_codes c Hc) as [-> | [-> | [-> | [-> | [-> | [-> | [-> |
    [-> | [-> | ->]]]]]]]]]; split; reflexivity.
Qed.

Lemma int_digits (d : Decimal.uint) :
  d <> Decimal.Nil ->
  (DecimalPos.Unsigned.usize d <= 640)%N ->
  Py.int (lit (NilEmpty.string_of_uint d)) = Some (Z.of_N (Pos.of_uint d))
  /\ Py.int (45%N :: lit (NilEmpty.string_of_uint d))
     = Some (- Z.of_N (Pos.of_uint d)).
Proof.
  intros Hd Hn.
  assert (Hsize : (DecimalPos.Unsigned.usize d =? 0)%N = false).
  { apply N.eqb_neq; destruct d; simpl; try lia; congruence. }
  assert (Hlimit : ((640 <? DecimalPos.Unsigned.usize d)
                    && (0 <? int_max_str_digits)
                    && (int_max_str_digits <? DecimalPos.Unsigned.usize d))%N
                   = false).
  { replace (640 <? DecimalPos.Unsigned.usize d)%N with false; [reflexivity|].
    symmetry; apply N.ltb_ge, Hn. }
  pose proof (scan_digits_decimal d 0 0) as Hscan.
  pose proof (to_ascii_decimal_digits d) as Hascii.
  rewrite DecimalPos.Unsigned.of_uint_alt.
  destruct (digits_first d Hd) as (c & s & E & Hc).
  rewrite E in *.
  destruct (int_digit_first c s Hc Hascii) as [Hp Hm].
  rewrite Hp, Hm, Hscan, N.add_0_l, Hlimit, Hsize; simpl Py.skip_space.
  split; f_equal; lia.
Qed.

Lemma int_str_of_int (n : Z) :
  (List.length (str_of_int (Z.abs n)) <= 640)%nat ->
  Py.int (str_of_int n) = Some n.
Proof.
  unfold str_of_int; destruct n as [|p|p]; simpl Z.abs; simpl Z.to_int;
    simpl NilZero.string_of_int; intros Hlen.
  - reflexivity.
  - pose proof (DecimalPos.Unsigned.to_uint_nonnil p) as Hd.
    assert (E : NilZero.string_of_uint (Pos.to_uint p)
                = NilEmpty.string_of_uint (Pos.to_uint p)).
    { destruct (Pos.to_uint p); [congruence | reflexivity ..]. }
    rewrite E in *.
    destruct (int_digits (Pos.to_uint p) Hd) as [H _].
    + rewrite <- digits_length; lia.
    + rewrite H, DecimalPos.Unsigned.of_to; reflexivity.
  - pose proof (DecimalPos.Unsigned.to_uint_nonnil p) as Hd.
    assert (E : NilZero.string_of_uint (Pos.to_uint p)
                = NilEmpty.string_of_uint (Pos.to_uint p)).
    { destruct (Pos.to_uint p); [congruence | reflexivity ..]. }
    rewrite E in *; rewrite lit_cons.
    destruct (int_digits (Pos.to_uint p) Hd) as [_ H].
    + rewrite <- digits_length; lia.
    + change (N_of_ascii "-") with 45%N.
      rewrite H, DecimalPos.Unsigned.of_to; reflexivity.
Qed.

(** X23. A threshold written in decimal the way [str] writes an integer, with
    its minus sign when negative, is read back as that integer and no
    diagnostic is printed; this holds for every integer of at most 640
    digits. *)
Theorem decimal_threshold_read_back (name path : str) (n : Z) :
  (List.length (str_of_int (Z.abs n)) <= 640)%nat ->
  parse_args [name; path; str_of_int n] = (Path_of_str path, n, []).
Proof.
  intros H; unfold parse_args; simpl.
  rewrite (int_str_of_int n H); reflexivity.
Qed.
End DecimalText.

Lemma decimal_threshold_read_back_witness :
  (List.length (str_of_int (Z.abs (-3))) <= 640)%nat
  /\ @parse_args ascii_runtime
       [lit "anomaly_detector.py"; lit "auth.log"; lit "-3"]
     = (lit "auth.log", -3, []).
Proof.
  assert (H : (List.length (str_of_int (Z.abs (-3))) <= 640)%nat).
  { simpl; lia. }
  split; [exact H|].
  exact (@decimal_threshold_read_back ascii_runtime
           (lit "anomaly_detector.py") (lit "auth.log") (-3) H).
Defined.
